(** * Webscale address-set integration: a shallow embedding of
    [src/Webscale_integration.py] and the properties of its membership
    commands.

    The Python module is embedded function by function.  Values exchanged
    with the remote service are decoded JSON; requests go through
    [BaseClient._http_request], whose transport (the remote service) is a
    parameter of the development; exceptions are values threaded through
    an outcome monad together with the remote state, the list of requests
    sent and the text printed. *)

From Stdlib Require Import String Ascii List Bool ZArith Lia DecimalString.
Import ListNotations.
Set Warnings "-register-all".
Local Open Scope string_scope.
Local Open Scope list_scope.

(** ** Python values *)

(** What [json.loads] can produce: [None], [bool], [int], [float], [str],
    [list] and [dict] with [str] keys (insertion ordered, so an association
    list).  A float is kept as mantissa and decimal exponent: the program
    never computes with one. *)
Inductive json : Type :=
| JNull
| JBool (b : bool)
| JInt (z : Z)
| JFloat (mantissa exponent : Z)
| JStr (s : string)
| JList (items : list json)
| JDict (fields : list (string * json)).

(** An instance of [Exception]: its class name and [str(e)]. *)
Record exn : Type := Exn { exn_class : string; exn_text : string }.

Inductive outcome (A : Type) : Type :=
| Returned (a : A)
| Raised (e : exn).
Arguments Returned {A} a.
Arguments Raised {A} e.

Definition TypeError (msg : string) : exn := Exn "TypeError" msg.
Definition KeyError (key : string) : exn := Exn "KeyError" ("'" ++ key ++ "'").
Definition AttributeError (msg : string) : exn := Exn "AttributeError" msg.

Module Py.

(** [d.get(k)] on the association list of a dict. *)
Fixpoint lookup (k : string) (fields : list (string * json)) : option json :=
  match fields with
  | [] => None
  | (k', v) :: rest => if String.eqb k' k then Some v else lookup k rest
  end.

Definition type_name (v : json) : string :=
  match v with
  | JNull => "NoneType"
  | JBool _ => "bool"
  | JInt _ => "int"
  | JFloat _ _ => "float"
  | JStr _ => "str"
  | JList _ => "list"
  | JDict _ => "dict"
  end.

(** [v[k]] for a [str] subscript [k]. *)
Definition getitem (v : json) (k : string) : outcome json :=
  match v with
  | JDict fields =>
      match lookup k fields with
      | Some x => Returned x
      | None => Raised (KeyError k)
      end
  | JList _ => Raised (TypeError "list indices must be integers or slices, not str")
  | JStr _ => Raised (TypeError "string indices must be integers")
  | _ => Raised (TypeError ("'" ++ type_name v ++ "' object is not subscriptable"))
  end.

(** The characters of a [str], each a [str] of length one (one per byte
    here; the program only subscripts them, which raises either way). *)
Fixpoint chars (s : string) : list json :=
  match s with
  | EmptyString => []
  | String c rest => JStr (String c EmptyString) :: chars rest
  end.

(** The items [for item in v] visits: the elements of a list, the keys of
    a dict, the characters of a str; anything else is not iterable. *)
Definition iter (v : json) : outcome (list json) :=
  match v with
  | JList items => Returned items
  | JDict fields => Returned (map (fun kv => JStr (fst kv)) fields)
  | JStr s => Returned (chars s)
  | _ => Raised (TypeError ("'" ++ type_name v ++ "' object is not iterable"))
  end.

(** [v == s] for a [str] [s]: only an equal [str] compares equal. *)
Definition eq_str (v : json) (s : string) : bool :=
  match v with
  | JStr t => String.eqb t s
  | _ => false
  end.

(** [v.append(x)]: only a list has the method. *)
Definition append (v x : json) : outcome json :=
  match v with
  | JList items => Returned (JList (items ++ [x]))
  | _ => Raised (AttributeError
                   ("'" ++ type_name v ++ "' object has no attribute 'append'"))
  end.

(** [str.lower] on one character.  A str is held as its UTF-8 bytes and
    bytes above 127 are left alone: Python maps non-ASCII letters too, but
    the only ASCII letters that produces are [k] (from the Kelvin sign) and
    an [i] followed by a combining dot (from U+0130), and neither can take
    part in an occurrence of [forbidden] or [authorization]. *)
Definition lower_ascii (c : ascii) : ascii :=
  let n := nat_of_ascii c in
  if (65 <=? n)%nat && (n <=? 90)%nat then ascii_of_nat (n + 32) else c.

Fixpoint lower (s : string) : string :=
  match s with
  | EmptyString => EmptyString
  | String c rest => String (lower_ascii c) (lower rest)
  end.

(** [p in s] for two strs. *)
Fixpoint contains (p s : string) : bool :=
  String.prefix p s ||
  match s with
  | EmptyString => false
  | String _ rest => contains p rest
  end.

End Py.

(** ** Requests *)

Inductive http_method : Type := GET | PATCH.

(** What [BaseClient._http_request] hands to the transport: the client's
    base URL and headers, and the arguments of the call. *)
Record request : Type := Request {
  req_method : http_method;
  req_base_url : string;
  req_url_suffix : string;
  req_headers : option (list (string * string));
  req_json_data : option json
}.

Fixpoint header (name : string) (hs : list (string * string)) : option string :=
  match hs with
  | [] => None
  | (n, v) :: rest => if String.eqb n name then Some v else header name rest
  end.

(** The value of header [name] on a request, if it carries one. *)
Definition req_header (name : string) (r : request) : option string :=
  match req_headers r with
  | Some hs => header name hs
  | None => None
  end.

(** ** The client *)

Record Client : Type := MkClient {
  _base_url : string;
  api_key : option string;
  _headers : option (list (string * string))
}.

(** Truth value of [api_key]: [None] and [''] are false. *)
Definition truthy (k : option string) : bool :=
  match k with
  | Some (String _ _) => true
  | _ => false
  end.

(** [Client.__init__]: [BaseClient.__init__] leaves [_headers] at [None];
    the header is set only under [if self.api_key]. *)
Definition Client__init__ (base_url : string) (key : option string) : Client :=
  let self := MkClient base_url key None in
  if truthy (api_key self) then
    MkClient (_base_url self) (api_key self)
      (Some [("Authorization",
              ("Bearer " ++ match api_key self with Some k => k | None => "" end)%string)])
  else self.

(** [CommandResults(outputs_prefix=..., raw_response=..., readable_output=...)]. *)
Record CommandResults : Type := MkCommandResults {
  outputs_prefix : string;
  raw_response : json;
  readable_output : string
}.

(** ** Effects

    A command runs against the remote service, sends requests and prints.
    An exception ends the run; what was sent and printed before stays. *)

Record state (World : Type) : Type := MkState {
  remote : World;
  sent : list request;
  stdout : list string
}.
Arguments MkState {World} remote sent stdout.
Arguments remote {World} s.
Arguments sent {World} s.
Arguments stdout {World} s.

Definition M (World A : Type) : Type := state World -> outcome A * state World.

Definition ret {World A} (a : A) : M World A := fun st => (Returned a, st).

Definition raise {World A} (e : exn) : M World A := fun st => (Raised e, st).

Definition bind {World A B} (m : M World A) (k : A -> M World B) : M World B :=
  fun st =>
    match m st with
    | (Returned a, st') => k a st'
    | (Raised e, st') => (Raised e, st')
    end.

(** [try: m  except Exception as e: h e]. *)
Definition try_except {World A} (m : M World A) (h : exn -> M World A) : M World A :=
  fun st =>
    match m st with
    | (Returned a, st') => (Returned a, st')
    | (Raised e, st') => h e st'
    end.

Definition lift {World A} (o : outcome A) : M World A := fun st => (o, st).

Definition print {World} (line : string) : M World unit :=
  fun st => (Returned tt, MkState (remote st) (sent st) (stdout st ++ [line])).

Declare Scope py_scope.
Delimit Scope py_scope with py.
Notation "x <- m ;; k" := (bind m (fun x => k))
  (at level 61, m at next level, right associativity) : py_scope.
Notation "m ;;; k" := (bind m (fun _ => k))
  (at level 61, right associativity) : py_scope.
Local Open Scope py_scope.

Section Program.

Context {World : Type}.

(** The transport under [BaseClient._http_request]: the remote service
    answers a request with decoded JSON or the call raises. *)
Variable http : request -> World -> outcome json * World.

(** [tableToMarkdown(name, t)] of the host library. *)
Variable tableToMarkdown : string -> json -> string.

(** [self._http_request(method=..., url_suffix=..., json_data=...)]: no
    [headers] argument is ever passed, so the client's own are sent. *)
Definition _http_request (self : Client) (method : http_method)
    (url_suffix : string) (json_data : option json) : M World json :=
  fun st =>
    let req := Request method (_base_url self) url_suffix (_headers self) json_data in
    let (r, w) := http req (remote st) in
    (r, MkState w (sent st ++ [req]) (stdout st)).

Definition get_address_sets (self : Client) : M World json :=
  _http_request self GET "/address-sets" None.

Definition get_address_set (self : Client) (id : string) : M World json :=
  _http_request self GET ("/address-sets/" ++ id) None.

Definition get_address_set_members (self : Client) (id : string) : M World json :=
  _http_request self GET ("/address-sets/" ++ id ++ "/addresses") None.

Definition get_address_set_add_member (self : Client) (id address : string)
    (entries : json) : M World json :=
  _http_request self PATCH ("/address-sets/" ++ id)
    (Some (JDict [("entries", entries)])).

(** [test_module]: the [except] branch either returns the remediation
    text or re-raises [e]; a run that leaves the [try] normally reaches
    [return 'ok']. *)
Definition test_module (client : Client) : M World string :=
  early <- try_except
             (get_address_sets client ;;; ret None)
             (fun e =>
                let exception_text := Py.lower (exn_text e) in
                if Py.contains "forbidden" exception_text
                   || Py.contains "authorization" exception_text
                then ret (Some "Authorization Error: make sure API Key is correctly set")
                else raise e) ;;
  match early with
  | Some text => ret text
  | None => ret "ok"
  end.

Definition get_address_sets_command (client : Client) : M World CommandResults :=
  response <- get_address_sets client ;;
  let readable_output := tableToMarkdown "Address Sets" response in
  ret (MkCommandResults "Webscale Address Sets" response readable_output).

Definition get_address_set_command (client : Client) (id : string)
    : M World CommandResults :=
  response <- get_address_set client id ;;
  let readable_output := tableToMarkdown "Address Set Config" response in
  ret (MkCommandResults "Webscale Address Set" response readable_output).

(** [get_address_set_members_command(client, id, address)].  The third
    positional parameter has no default: a call that leaves it out
    ([address = None] here) raises [TypeError] before the body runs.  The
    body's first statement looks up [client.get_address_set_member], a
    name [Client] does not define, so it raises [AttributeError]; lines
    136-141 are never reached. *)
Definition get_address_set_members_command (client : Client) (id : string)
    (address : option string) : M World CommandResults :=
  match address with
  | None =>
      raise (TypeError ("get_address_set_members_command() missing 1 required "
                        ++ "positional argument: 'address'"))
  | Some _ =>
      raise (AttributeError "'Client' object has no attribute 'get_address_set_member'")
  end.

(** The loop of [get_address_set_is_member_command]: [is_member] is the
    flag carried from one iteration to the next; there is no [break]. *)
Fixpoint scan (items : list json) (address : string) (is_member : bool)
    : outcome bool :=
  match items with
  | [] => Returned is_member
  | item :: rest =>
      match Py.getitem item "address" with
      | Returned v =>
          scan rest address (if Py.eq_str v address then true else is_member)
      | Raised e => Raised e
      end
  end.

Definition get_address_set_is_member_command (client : Client)
    (id address : string) : M World bool :=
  response <- get_address_set_members client id ;;
  let is_member := false in
  items <- lift (Py.iter response) ;;
  lift (scan items address is_member).

Definition get_address_set_is_blocked_command (client : Client)
    (id address : string) : M World bool :=
  get_address_set_is_member_command client id address.

Definition get_address_set_is_throttled_command (client : Client)
    (id address : string) : M World bool :=
  get_address_set_is_member_command client id address.

(** Lines 170-173 write the dict display with parentheses; it is read as
    the dict it spells.  Its first value is the f-string [f"(address)"],
    which has no replacement field and so is the text [(address)]. *)
Definition entry : json :=
  JDict [("address", JStr "(address)");
         ("description", JStr "Added by Cortex XSOAR")].

Definition get_address_set_add_member_command (client : Client)
    (id address : string) : M World CommandResults :=
  is_member <- get_address_set_is_member_command client id address ;;
  if Bool.eqb is_member false then
    entries <- get_address_set_members client id ;;
    entries <- lift (Py.append entries entry) ;;
    response <- get_address_set_add_member client id address entries ;;
    let readable_output := tableToMarkdown "Address Set Config" response in
    ret (MkCommandResults "Webscale Address Set" response readable_output)
  else
    print ("IP address " ++ address ++ " is already a member of address set " ++ id) ;;;
    get_address_set_members_command client id None.

End Program.

(** ** A reference remote service *)

Module Service.

(** Modelled from the spec: the remote service behind the four endpoints
    (sections 4.1 and 6), which is not part of the repository.  It keeps,
    per set id, the entry collection last written; GET on the member
    endpoint returns it, PATCH on the set endpoint replaces it with the
    [entries] of the body and answers with the set's configuration.  A
    service configured with a key refuses requests that do not carry it. *)
Record World : Type := MkWorld {
  accepted_key : option string;
  sets : list (string * json)
}.

Fixpoint strip_prefix (p s : string) : option string :=
  match p, s with
  | EmptyString, _ => Some s
  | String a p', String b s' => if Ascii.eqb a b then strip_prefix p' s' else None
  | String _ _, EmptyString => None
  end.

Fixpoint strip_suffix (p s : string) : option string :=
  if String.eqb s p then Some EmptyString
  else match s with
       | EmptyString => None
       | String c s' => option_map (String c) (strip_suffix p s')
       end.

Fixpoint members (id : string) (ss : list (string * json)) : option json :=
  match ss with
  | [] => None
  | (id', es) :: rest => if String.eqb id' id then Some es else members id rest
  end.

Fixpoint replace (id : string) (es : json) (ss : list (string * json))
    : list (string * json) :=
  match ss with
  | [] => []
  | (id', es') :: rest =>
      if String.eqb id' id then (id', es) :: rest
      else (id', es') :: replace id es rest
  end.

Definition config (id : string) (es : json) : json :=
  JDict [("id", JStr id); ("entries", es)].

Definition forbidden : exn :=
  Exn "DemistoException" "Error in API call [403] - Forbidden".

Definition not_found : exn :=
  Exn "DemistoException" "Error in API call [404] - Not Found".

Definition authorized (w : World) (r : request) : bool :=
  match accepted_key w with
  | None => true
  | Some k =>
      match req_header "Authorization" r with
      | Some v => String.eqb v ("Bearer " ++ k)
      | None => false
      end
  end.

Definition found (o : option json) (w : World) : outcome json * World :=
  match o with
  | Some v => (Returned v, w)
  | None => (Raised not_found, w)
  end.

Definition handle (r : request) (w : World) : outcome json * World :=
  if negb (authorized w r) then (Raised forbidden, w)
  else
    match strip_prefix "/address-sets" (req_url_suffix r) with
    | Some EmptyString =>
        match req_method r with
        | GET => (Returned (JList (map (fun s => config (fst s) (snd s)) (sets w))), w)
        | PATCH => (Raised not_found, w)
        end
    | Some (String "/" rest) =>
        match req_method r, strip_suffix "/addresses" rest with
        | GET, Some id => found (members id (sets w)) w
        | GET, None => found (option_map (config rest) (members rest (sets w))) w
        | PATCH, _ =>
            match members rest (sets w), req_json_data r with
            | Some _, Some body =>
                match Py.lookup "entries" match body with JDict f => f | _ => [] end with
                | Some es =>
                    (Returned (config rest es),
                     MkWorld (accepted_key w) (replace rest es (sets w)))
                | None => found (option_map (config rest) (members rest (sets w))) w
                end
            | _, _ => (Raised not_found, w)
            end
        end
    | _ => (Raised not_found, w)
    end.

(** The host's table renderer is irrelevant to the runs below. *)
Definition table (name : string) (t : json) : string := name.

Definition start (w : World) : state World := MkState w [] [].

End Service.

(** ** Vocabulary of the properties *)

(** An entry the scan can read: a mapping with the key ['address']. *)
Definition has_address (item : json) : bool :=
  match item with
  | JDict fields =>
      match Py.lookup "address" fields with Some _ => true | None => false end
  | _ => false
  end.

(** The entry's address field is exactly the string [a]. *)
Definition address_is (a : string) (item : json) : bool :=
  match item with
  | JDict fields =>
      match Py.lookup "address" fields with
      | Some (JStr s) => String.eqb s a
      | _ => false
      end
  | _ => false
  end.

(** [text] has a stretch that reads [pat] once case is ignored. *)
Definition contains_ci (pat text : string) : Prop :=
  exists pre mid post : string,
    text = (pre ++ mid ++ post)%string /\ Py.lower mid = Py.lower pat.

(** The requests a run added to the ones already sent. *)
Definition sends {World A} (m : M World A) (st : state World) (rs : list request) : Prop :=
  sent (snd (m st)) = sent st ++ rs.

Definition is_patch (r : request) : bool :=
  match req_method r with PATCH => true | GET => false end.

(** The requests a run sends, in order: what it adds to [sent]. *)
Definition requests_of {World A} (m : M World A) (st : state World) : list request :=
  skipn (length (sent st)) (sent (snd (m st))).

(** The entry points of the module that can reach the service. *)
Inductive call : Type :=
| CallListSets
| CallGetSet (id : string)
| CallListMembers (id : string)
| CallPatchMembers (id address : string) (entries : json)
| CallTestModule
| CallSetsCommand
| CallSetCommand (id : string)
| CallMembersCommand (id : string) (address : option string)
| CallIsMember (id address : string)
| CallIsBlocked (id address : string)
| CallIsThrottled (id address : string)
| CallAddMember (id address : string).

Definition perform {World} (http : request -> World -> outcome json * World)
    (table : string -> json -> string) (client : Client) (c : call) : M World unit :=
  match c with
  | CallListSets => get_address_sets http client ;;; ret tt
  | CallGetSet id => get_address_set http client id ;;; ret tt
  | CallListMembers id => get_address_set_members http client id ;;; ret tt
  | CallPatchMembers id address entries =>
      get_address_set_add_member http client id address entries ;;; ret tt
  | CallTestModule => test_module http client ;;; ret tt
  | CallSetsCommand => get_address_sets_command http table client ;;; ret tt
  | CallSetCommand id => get_address_set_command http table client id ;;; ret tt
  | CallMembersCommand id address =>
      get_address_set_members_command client id address ;;; ret tt
  | CallIsMember id address =>
      get_address_set_is_member_command http client id address ;;; ret tt
  | CallIsBlocked id address =>
      get_address_set_is_blocked_command http client id address ;;; ret tt
  | CallIsThrottled id address =>
      get_address_set_is_throttled_command http client id address ;;; ret tt
  | CallAddMember id address =>
      get_address_set_add_member_command http table client id address ;;; ret tt
  end.

(** Every run of [m] only adds requests, and each one added has headers [h]. *)
Definition carries {World A} (h : option (list (string * string))) (m : M World A) : Prop :=
  forall st, exists rs,
    sent (snd (m st)) = sent st ++ rs /\ Forall (fun r => req_headers r = h) rs.

(** The scenario of the spec: set [blocklist-1] holds the one address
    [1.2.3.4]; the service accepts the key the client is built with. *)
Module Scenario.

Definition seed : json :=
  JDict [("address", JStr "1.2.3.4"); ("description", JStr "seed")].

Definition world : Service.World :=
  Service.MkWorld (Some "s3cret") [("blocklist-1", JList [seed])].

Definition client : Client := Client__init__ "https://api.example" (Some "s3cret").

Definition stranger : Client := Client__init__ "https://api.example" None.

Definition add (address : string) : M Service.World CommandResults :=
  get_address_set_add_member_command Service.handle Service.table
    client "blocklist-1" address.

Definition members_req : request :=
  Request GET "https://api.example" "/address-sets/blocklist-1/addresses"
    (Some [("Authorization", "Bearer s3cret")]) None.

Definition patch_req (entries : list json) : request :=
  Request PATCH "https://api.example" "/address-sets/blocklist-1"
    (Some [("Authorization", "Bearer s3cret")])
    (Some (JDict [("entries", JList entries)])).

Definition sets_req (c : Client) : request :=
  Request GET "https://api.example" "/address-sets" (_headers c) None.

(** A service that cannot be reached: every request times out. *)
Definition timeout : exn := Exn "ConnectionError" "Connection timed out".

Definition unreachable (r : request) (w : unit) : outcome json * unit :=
  (Raised timeout, w).

End Scenario.

(** The request [ListSets()] sends for [client]. *)
Definition sets_request (client : Client) : request :=
  Request GET (_base_url client) "/address-sets" (_headers client) None.

(** The request [ListMembers(id)] sends for [client]. *)
Definition members_request (client : Client) (id : string) : request :=
  Request GET (_base_url client) ("/address-sets/" ++ id ++ "/addresses")
    (_headers client) None.

(** The request [PatchMembers(id, entries)] sends for [client]. *)
Definition patch_request (client : Client) (id : string) (entries : json) : request :=
  Request PATCH (_base_url client) ("/address-sets/" ++ id)
    (_headers client) (Some (JDict [("entries", entries)])).

(** The text [test_module] returns for an authentication failure. *)
Definition remediation : string :=
  "Authorization Error: make sure API Key is correctly set".


(** Every run of [m] only adds requests, and each one added satisfies [P]. *)
Definition sends_only {World A} (P : request -> Prop) (m : M World A) : Prop :=
  forall st, exists rs,
    sent (snd (m st)) = sent st ++ rs /\ Forall P rs.

(** A request that reads: a GET without a body. *)
Definition reads (r : request) : Prop :=
  req_method r = GET /\ req_json_data r = None.

(** The entry points that are meant to write: the PATCH method and the
    conditional add built on it. *)
Definition writes (c : call) : bool :=
  match c with
  | CallPatchMembers _ _ _ | CallAddMember _ _ => true
  | _ => false
  end.

(** ** Dispatch of a command *)

Module Call.

(** [demisto.args()]: a dict from argument name to text, as the list of
    its items in insertion order (the names are distinct). *)
Definition kwargs : Type := list (string * string).

Fixpoint get (k : string) (args : kwargs) : option string :=
  match args with
  | [] => None
  | (k', v) :: rest => if String.eqb k' k then Some v else get k rest
  end.

(** [args[k]] once the call has bound: the text passed for parameter [k]. *)
Definition value (k : string) (args : kwargs) : string :=
  match get k args with
  | Some v => v
  | None => EmptyString
  end.

Definition quote (name : string) : string := "'" ++ name ++ "'".

Fixpoint names_tail (names : list string) : string :=
  match names with
  | [] => EmptyString
  | [z] => ", and " ++ quote z
  | b :: rest => ", " ++ quote b ++ names_tail rest
  end.

(** How CPython lists the missing parameters: ['a'], ['a' and 'b'],
    ['a', 'b', and 'c']. *)
Definition names (missing : list string) : string :=
  match missing with
  | [] => EmptyString
  | [a] => quote a
  | [a; b] => quote a ++ " and " ++ quote b
  | a :: rest => quote a ++ names_tail rest
  end.

(** The keywords of [f(client, **args)] are taken in order: one that names
    the positional [client] or no parameter at all ends the call. *)
Fixpoint keywords (f : string) (params : list string) (args : kwargs)
    : outcome unit :=
  match args with
  | [] => Returned tt
  | (k, _) :: rest =>
      if String.eqb k "client" then
        Raised (TypeError (f ++ "() got multiple values for argument 'client'"))
      else if existsb (String.eqb k) params then keywords f params rest
      else
        Raised (TypeError (f ++ "() got an unexpected keyword argument " ++ quote k))
  end.

(** The parameters no keyword has filled. *)
Definition unfilled (params : list string) (args : kwargs) : list string :=
  filter (fun p => match get p args with Some _ => false | None => true end) params.

(** Binding of the call [f(client, **args)] to a function whose
    parameters after [client] are [params], none with a default.  The
    texts are those of CPython 3.8 to 3.12. *)
Definition bind_arguments (f : string) (params : list string) (args : kwargs)
    : outcome unit :=
  match keywords f params args with
  | Raised e => Raised e
  | Returned _ =>
      match unfilled params args with
      | [] => Returned tt
      | missing =>
          Raised (TypeError
                    (f ++ "() missing "
                       ++ NilZero.string_of_uint (Nat.to_uint (length missing))
                       ++ " required positional argument"
                       ++ (if (length missing =? 1)%nat then "" else "s")
                       ++ ": " ++ names missing))
      end
  end.

End Call.

(** What [main] hands to [return_results]. *)
Inductive result : Type :=
| ResultText (text : string)
| ResultBool (b : bool)
| ResultCommand (c : CommandResults).

Definition NotImplementedError (msg : string) : exn := Exn "NotImplementedError" msg.

(** The [if]/[elif] chain of [main] (lines 221-247) for the client built
    at lines 218-219: the run returns the value handed to
    [return_results], or raises what the [try] block raises. *)
Definition main_dispatch {World} (http : request -> World -> outcome json * World)
    (table : string -> json -> string) (client : Client) (command : string)
    (args : Call.kwargs) : M World result :=
  if String.eqb command "test-module" then
    r <- test_module http client ;; ret (ResultText r)
  else if String.eqb command "webscale-address-sets" then
    r <- get_address_sets_command http table client ;; ret (ResultCommand r)
  else if String.eqb command "webscale-address-set" then
    lift (Call.bind_arguments "get_address_set_command" ["id"] args) ;;;
    r <- get_address_set_command http table client (Call.value "id" args) ;;
    ret (ResultCommand r)
  else if String.eqb command "webscale-address-set-members" then
    lift (Call.bind_arguments "get_address_set_members_command"
            ["id"; "address"] args) ;;;
    r <- get_address_set_members_command client (Call.value "id" args)
           (Some (Call.value "address" args)) ;;
    ret (ResultCommand r)
  else if String.eqb command "webscale-address-set-is-member" then
    lift (Call.bind_arguments "get_address_set_is_member_command"
            ["id"; "address"] args) ;;;
    r <- get_address_set_is_member_command http client (Call.value "id" args)
           (Call.value "address" args) ;;
    ret (ResultBool r)
  else if String.eqb command "webscale-address-set-is-blocked" then
    lift (Call.bind_arguments "get_address_set_is_blocked_command"
            ["id"; "address"] args) ;;;
    r <- get_address_set_is_blocked_command http client (Call.value "id" args)
           (Call.value "address" args) ;;
    ret (ResultBool r)
  else if String.eqb command "webscale-address-set-is-throttled" then
    lift (Call.bind_arguments "get_address_set_is_throttled_command"
            ["id"; "address"] args) ;;;
    r <- get_address_set_is_throttled_command http client (Call.value "id" args)
           (Call.value "address" args) ;;
    ret (ResultBool r)
  else if String.eqb command "webscale-address-set-add-member" then
    lift (Call.bind_arguments "get_address_set_add_member_command"
            ["id"; "address"] args) ;;;
    r <- get_address_set_add_member_command http table client
           (Call.value "id" args) (Call.value "address" args) ;;
    ret (ResultCommand r)
  else
    raise (NotImplementedError ("command " ++ command ++ " is not implemented.")).

(** The command names [main] tests for. *)
Definition commands : list string :=
  ["test-module"; "webscale-address-sets"; "webscale-address-set";
   "webscale-address-set-members"; "webscale-address-set-is-member";
   "webscale-address-set-is-blocked"; "webscale-address-set-is-throttled";
   "webscale-address-set-add-member"].

(** The parameters, after [client], of the function a command that passes
    [**args] calls. *)
Definition parameters (command : string) : option (list string) :=
  if String.eqb command "webscale-address-set" then Some ["id"]
  else if existsb (String.eqb command)
            ["webscale-address-set-members"; "webscale-address-set-is-member";
             "webscale-address-set-is-blocked"; "webscale-address-set-is-throttled";
             "webscale-address-set-add-member"]
  then Some ["id"; "address"]
  else None.

(** Further situations: a set whose member endpoint answers with an empty
    mapping, and argument dicts as the host passes them. *)
Module Cases.

Definition world : Service.World :=
  Service.MkWorld None
    [("empty", JDict []); ("null", JNull); ("blocklist-1", JList [Scenario.seed])].

Definition client : Client := Client__init__ "https://api.example" None.

Definition args : Call.kwargs := [("address", "1.2.3.4"); ("id", "blocklist-1")].

Definition only_id : Call.kwargs := [("id", "blocklist-1")].

End Cases.

(** ** Strings *)

Lemma lower_app (a b : string) :
  Py.lower (a ++ b) = (Py.lower a ++ Py.lower b)%string.
Proof.
  induction a as [|c a IH]; simpl; [reflexivity | now rewrite IH].
Qed.

Lemma lower_split (t a b : string) :
  Py.lower t = (a ++ b)%string ->
  exists t1 t2, t = (t1 ++ t2)%string /\ Py.lower t1 = a /\ Py.lower t2 = b.
Proof.
  revert t; induction a as [|c a IH]; intros t H.
  - exists EmptyString, t. auto.
  - destruct t as [|d t]; simpl in H; [discriminate|].
    injection H as Hc Ht.
    destruct (IH _ Ht) as (t1 & t2 & -> & H1 & H2).
    exists (String d t1), t2. simpl. now rewrite Hc, H1.
Qed.

Lemma prefix_app (p s : string) :
  String.prefix p s = true <-> exists post, s = (p ++ post)%string.
Proof.
  revert s; induction p as [|a p IH]; intros s.
  - destruct s; simpl; split; eauto.
  - destruct s as [|b s]; simpl.
    + split; [discriminate | intros [post H]; discriminate].
    + destruct (ascii_dec a b) as [->|Hab].
      * rewrite IH. split; intros [post H]; exists post; congruence.
      * split; [discriminate | intros [post H]; congruence].
Qed.

Lemma contains_app (p s : string) :
  Py.contains p s = true <-> exists pre post, s = (pre ++ p ++ post)%string.
Proof.
  induction s as [|c s IH].
  - cbn [Py.contains]. rewrite orb_false_r, prefix_app. split.
    + intros [post H]. exists EmptyString, post. exact H.
    + intros (pre & post & H). destruct pre; [eauto | discriminate].
  - cbn [Py.contains]. rewrite orb_true_iff, prefix_app, IH. split.
    + intros [[post H] | (pre & post & H)].
      * exists EmptyString, post. exact H.
      * exists (String c pre), post. simpl. now rewrite H.
    + intros (pre & post & H). destruct pre as [|d pre].
      * left. eauto.
      * right. injection H as _ H. eauto.
Qed.

(** Python's test on the lowered text is the case-insensitive search. *)
Lemma contains_lower (pat text : string) :
  Py.lower pat = pat ->
  Py.contains pat (Py.lower text) = true <-> contains_ci pat text.
Proof.
  intros Hp. rewrite contains_app. split.
  - intros (pre & post & H).
    destruct (lower_split _ _ _ H) as (t1 & t23 & -> & _ & H23).
    destruct (lower_split _ _ _ H23) as (t2 & t3 & -> & H2 & _).
    exists t1, t2, t3. split; [reflexivity | congruence].
  - intros (pre & mid & post & -> & H).
    exists (Py.lower pre), (Py.lower post).
    rewrite !lower_app. congruence.
Qed.

(** ** The membership scan *)

Lemma getitem_address (item : json) :
  has_address item = true ->
  exists v, Py.getitem item "address" = Returned v /\
            forall a, Py.eq_str v a = address_is a item.
Proof.
  destruct item as [| | | | |items|fields]; simpl; try discriminate.
  destruct (Py.lookup "address" fields) as [v|]; [|discriminate].
  intros _. exists v. split; [reflexivity|].
  intros a. destruct v; reflexivity.
Qed.

Lemma getitem_no_address (item : json) :
  has_address item = false -> exists e, Py.getitem item "address" = Raised e.
Proof.
  destruct item as [| | | | |items|fields]; simpl; eauto.
  destruct (Py.lookup "address" fields); [discriminate | eauto].
Qed.

(** On readable entries the flag ends as the disjunction of all tests. *)
Lemma scan_readable (items : list json) (a : string) (acc : bool) :
  forallb has_address items = true ->
  scan items a acc = Returned (acc || existsb (address_is a) items).
Proof.
  revert acc; induction items as [|item items IH]; intros acc H; simpl in *.
  - now rewrite orb_false_r.
  - apply andb_true_iff in H as [Hi Hr].
    destruct (getitem_address _ Hi) as (v & -> & Hv).
    rewrite (IH _ Hr), Hv.
    destruct (address_is a item), acc; reflexivity.
Qed.

(** One unreadable entry anywhere makes the scan raise. *)
Lemma scan_unreadable (items : list json) (a : string) (acc : bool) :
  forallb has_address items = false -> exists e, scan items a acc = Raised e.
Proof.
  revert acc; induction items as [|item items IH]; intros acc H; simpl in *.
  - discriminate.
  - destruct (has_address item) eqn:Hi.
    + destruct (getitem_address _ Hi) as (v & -> & _). apply IH. exact H.
    + destruct (getitem_no_address _ Hi) as [e ->]. eauto.
Qed.

Lemma scan_returns_iff (items : list json) (a : string) (acc : bool) :
  (exists b, scan items a acc = Returned b) <-> forallb has_address items = true.
Proof.
  split.
  - intros [b Hb]. destruct (forallb has_address items) eqn:H; [reflexivity|].
    destruct (scan_unreadable items a acc H) as [e He]. congruence.
  - intros H. rewrite (scan_readable _ _ _ H). eauto.
Qed.

Section Membership.

Context {World : Type}.
Variable http : request -> World -> outcome json * World.
Variable tableToMarkdown : string -> json -> string.

Let is_member := get_address_set_is_member_command http.
Let is_blocked := get_address_set_is_blocked_command http.
Let is_throttled := get_address_set_is_throttled_command http.
Let add_member := get_address_set_add_member_command http tableToMarkdown.

Lemma is_member_run (client : Client) (id address : string) (st : state World)
    (response : json) (w : World) :
  http (members_request client id) (remote st) = (Returned response, w) ->
  is_member client id address st =
    (match Py.iter response with
     | Returned items => scan items address false
     | Raised e => Raised e
     end,
     MkState w (sent st ++ [members_request client id]) (stdout st)).
Proof.
  intros H. unfold is_member, get_address_set_is_member_command, bind,
    get_address_set_members, _http_request, lift.
  fold (members_request client id). rewrite H.
  destruct (Py.iter response); reflexivity.
Qed.

(** C3.  When [ListMembers(id)] returns the list [items] of entries, each
    a mapping with an ['address'] key, [IsMember(id, a)] returns a
    boolean; it is [True] exactly when some entry's address field is the
    string [a] (equal character for character), and [False] when no
    entry matches, the empty list included. *)
Theorem is_member_iff (client : Client) (id address : string)
    (st : state World) (items : list json) (w : World) :
  http (members_request client id) (remote st) = (Returned (JList items), w) ->
  forallb has_address items = true ->
  exists b,
    fst (is_member client id address st) = Returned b /\
    (b = true <-> exists item, In item items /\ address_is address item = true) /\
    (b = false <-> forall item, In item items -> address_is address item = false).
Proof.
  intros Hget Hok. rewrite (is_member_run _ _ _ _ _ _ Hget). simpl.
  rewrite (scan_readable _ _ _ Hok). simpl.
  exists (existsb (address_is address) items). split; [reflexivity|]. split.
  - apply existsb_exists.
  - rewrite <- not_true_iff_false, existsb_exists. split.
    + intros Hn item Hin. destruct (address_is address item) eqn:E; [|reflexivity].
      exfalso. apply Hn. eauto.
    + intros Hall (item & Hin & E). rewrite (Hall _ Hin) in E. discriminate.
Qed.

(** C6.  [IsBlocked] and [IsThrottled] are [IsMember]: on every client,
    id, address and state the three runs give the same result and leave
    the same state (remote service, requests sent, text printed). *)
Theorem aliases_are_is_member (client : Client) (id address : string)
    (st : state World) :
  is_blocked client id address st = is_member client id address st /\
  is_throttled client id address st = is_member client id address st.
Proof.
  split; reflexivity.
Qed.

(** C10.  Let [ListMembers(id)] return a value whose iteration visits
    [items].  The scan returns a boolean if and only if every item is a
    mapping with the key ['address']; then the result is whether some
    entry matches, whatever its position or multiplicity.  It looks at
    every item: an unreadable item makes the run raise even when a
    matching entry comes before it.  [IsBlocked] and [IsThrottled] behave
    the same, and [AddMemberIfAbsent] fails with the scan's exception
    before it sends anything further. *)
Theorem scan_total_iff_entries_readable (client : Client) (id address : string)
    (st : state World) (response : json) (items : list json) (w : World) :
  http (members_request client id) (remote st) = (Returned response, w) ->
  Py.iter response = Returned items ->
  ((exists b, fst (is_member client id address st) = Returned b) <->
   forallb has_address items = true) /\
  (forallb has_address items = true ->
   fst (is_member client id address st)
     = Returned (existsb (address_is address) items) /\
   fst (is_blocked client id address st)
     = Returned (existsb (address_is address) items) /\
   fst (is_throttled client id address st)
     = Returned (existsb (address_is address) items)) /\
  (forall before bad rest,
     items = before ++ bad :: rest -> has_address bad = false ->
     exists e,
       fst (is_member client id address st) = Raised e /\
       add_member client id address st
         = (Raised e, snd (is_member client id address st))).
Proof.
  intros Hget Hiter.
  assert (Hrun : fst (is_member client id address st) = scan items address false).
  { rewrite (is_member_run _ _ _ _ _ _ Hget), Hiter. reflexivity. }
  split; [|split].
  - rewrite Hrun. apply scan_returns_iff.
  - intros Hok. unfold is_blocked, is_throttled,
      get_address_set_is_blocked_command, get_address_set_is_throttled_command.
    fold is_member. rewrite Hrun, (scan_readable _ _ _ Hok). auto.
  - intros before bad rest -> Hbad.
    destruct (scan_unreadable (before ++ bad :: rest) address false) as [e He].
    { rewrite forallb_app. simpl. rewrite Hbad. apply andb_false_r. }
    exists e. rewrite Hrun. split; [exact He|].
    unfold add_member, get_address_set_add_member_command, bind.
    fold is_member.
    destruct (is_member client id address st) as [o st'] eqn:E.
    simpl in Hrun. subst o. rewrite He. reflexivity.
Qed.

End Membership.

(** ** The connectivity test *)

Section Connectivity.

Context {World : Type}.
Variable http : request -> World -> outcome json * World.

(** C7.  When [ListSets()] returns, [TestConnection] returns the string
    [ok]; it has sent that one request and printed nothing. *)
Theorem test_module_ok (client : Client) (st : state World) (v : json) (w : World) :
  http (sets_request client) (remote st) = (Returned v, w) ->
  test_module http client st
    = (Returned "ok", MkState w (sent st ++ [sets_request client]) (stdout st)).
Proof.
  intros H. unfold test_module, bind, try_except, get_address_sets, _http_request.
  fold (sets_request client). rewrite H. reflexivity.
Qed.

Lemma test_module_raised (client : Client) (st : state World) (e : exn) (w : World) :
  http (sets_request client) (remote st) = (Raised e, w) ->
  fst (test_module http client st)
    = if Py.contains "forbidden" (Py.lower (exn_text e))
         || Py.contains "authorization" (Py.lower (exn_text e))
      then Returned remediation
      else Raised e.
Proof.
  intros H. unfold test_module, bind, try_except, get_address_sets, _http_request.
  fold (sets_request client). rewrite H. simpl.
  destruct (Py.contains "forbidden" (Py.lower (exn_text e))
            || Py.contains "authorization" (Py.lower (exn_text e))); reflexivity.
Qed.

(** C5.  Let [ListSets()] raise [e].  If the text of [e] contains
    [forbidden] or [authorization], case ignored, [TestConnection]
    returns a text that mentions [API Key] and does not raise; if it
    contains neither, [TestConnection] raises [e] itself. *)
Theorem test_module_rewrites_auth_errors (client : Client) (st : state World)
    (e : exn) (w : World) :
  http (sets_request client) (remote st) = (Raised e, w) ->
  (contains_ci "forbidden" (exn_text e) \/ contains_ci "authorization" (exn_text e) ->
   exists text,
     fst (test_module http client st) = Returned text /\
     Py.contains "API Key" text = true) /\
  (~ contains_ci "forbidden" (exn_text e) ->
   ~ contains_ci "authorization" (exn_text e) ->
   fst (test_module http client st) = Raised e).
Proof.
  intros H. rewrite (test_module_raised _ _ _ _ H).
  rewrite <- !contains_lower by reflexivity. split.
  - intros Hc. apply orb_true_iff in Hc. rewrite Hc.
    exists remediation. split; reflexivity.
  - intros Hf Ha. apply not_true_iff_false in Hf, Ha. rewrite Hf, Ha. reflexivity.
Qed.

(** C9.  [PatchMembers(id, entries)] sends exactly one request: a PATCH
    to [/address-sets/{id}] whose JSON body is the mapping with the one
    key [entries] bound to the collection as supplied; what it returns
    (or raises) is the service's answer to that request. *)
Theorem patch_members_request (client : Client) (id address : string)
    (entries : json) (st : state World) :
  let run := get_address_set_add_member http client id address entries st in
  let req := Request PATCH (_base_url client) ("/address-sets/" ++ id)
               (_headers client) (Some (JDict [("entries", entries)])) in
  requests_of (get_address_set_add_member http client id address entries) st = [req] /\
  sent (snd run) = sent st ++ [req] /\
  fst run = fst (http req (remote st)) /\
  remote (snd run) = snd (http req (remote st)) /\
  stdout (snd run) = stdout st.
Proof.
  unfold requests_of, get_address_set_add_member, _http_request. simpl.
  destruct (http _ (remote st)) as [r w]. simpl.
  rewrite skipn_app, skipn_all, Nat.sub_diag. auto.
Qed.

End Connectivity.

(** ** Headers of the requests sent *)

Section Headers.

Context {World : Type}.
Variable http : request -> World -> outcome json * World.
Variable tableToMarkdown : string -> json -> string.
Variable h : option (list (string * string)).

Lemma carries_ret {A} (a : A) : carries (World := World) h (ret a).
Proof. intros st. exists []. simpl. now rewrite app_nil_r. Qed.

Lemma carries_raise {A} (e : exn) : carries (World := World) (A := A) h (raise e).
Proof. intros st. exists []. simpl. now rewrite app_nil_r. Qed.

Lemma carries_lift {A} (o : outcome A) : carries (World := World) h (lift o).
Proof. intros st. exists []. simpl. now rewrite app_nil_r. Qed.

Lemma carries_print (line : string) : carries (World := World) h (print line).
Proof. intros st. exists []. simpl. now rewrite app_nil_r. Qed.

Lemma carries_bind {A B} (m : M World A) (k : A -> M World B) :
  carries h m -> (forall a, carries h (k a)) -> carries h (bind m k).
Proof.
  intros Hm Hk st. unfold bind.
  destruct (Hm st) as (rs & E & F).
  destruct (m st) as [[a|e] st']; simpl in E.
  - destruct (Hk a st') as (rs' & E' & F').
    exists (rs ++ rs'). rewrite E', E, app_assoc.
    split; [reflexivity | apply Forall_app; auto].
  - exists rs. auto.
Qed.

Lemma carries_try {A} (m : M World A) (k : exn -> M World A) :
  carries h m -> (forall e, carries h (k e)) -> carries h (try_except m k).
Proof.
  intros Hm Hk st. unfold try_except.
  destruct (Hm st) as (rs & E & F).
  destruct (m st) as [[a|e] st']; simpl in E.
  - exists rs. auto.
  - destruct (Hk e st') as (rs' & E' & F').
    exists (rs ++ rs'). rewrite E', E, app_assoc.
    split; [reflexivity | apply Forall_app; auto].
Qed.

Lemma carries_http (client : Client) (method : http_method) (url_suffix : string)
    (json_data : option json) :
  _headers client = h ->
  carries h (_http_request http client method url_suffix json_data).
Proof.
  intros Hh st. unfold _http_request.
  destruct (http _ (remote st)) as [r w]. simpl.
  eexists. split; [reflexivity|]. constructor; [exact Hh | constructor].
Qed.

Ltac carry :=
  repeat first
    [ apply carries_ret | apply carries_raise | apply carries_lift
    | apply carries_print
    | apply carries_http; assumption
    | apply carries_bind | apply carries_try
    | match goal with
      | |- carries _ (if ?b then _ else _) => destruct b
      | |- carries _ (match ?x with _ => _ end) => destruct x
      | |- forall _, carries _ _ => intro
      end ].

Lemma perform_carries (client : Client) (c : call) :
  _headers client = h -> carries h (perform http tableToMarkdown client c).
Proof.
  intros Hh.
  destruct c; unfold perform, test_module, get_address_sets_command,
    get_address_set_command, get_address_set_members_command,
    get_address_set_is_blocked_command, get_address_set_is_throttled_command,
    get_address_set_add_member_command, get_address_set_is_member_command,
    get_address_set_members_command,
    get_address_sets, get_address_set, get_address_set_members,
    get_address_set_add_member; carry.
Qed.

Lemma requests_of_carries {A} (m : M World A) (st : state World) :
  carries h m -> Forall (fun r => req_headers r = h) (requests_of m st).
Proof.
  intros Hm. destruct (Hm st) as (rs & E & F). unfold requests_of.
  rewrite E, skipn_app, skipn_all, Nat.sub_diag. exact F.
Qed.

End Headers.

Lemma headers_of_init (base_url : string) (key : option string) :
  _headers (Client__init__ base_url key)
  = if truthy key then
      Some [("Authorization",
             ("Bearer " ++ match key with Some k => k | None => "" end)%string)]
    else None.
Proof.
  unfold Client__init__. simpl. destruct (truthy key); reflexivity.
Qed.

(** C8.  Take a client built by [Client.__init__] from [base_url] and
    [key], and any request sent by any entry point of the module run with
    that client.  If [key] is a non-empty string [k], the request carries
    the header [Authorization] with value [Bearer ] followed by [k]; if
    [key] is absent or empty, the request carries no such header. *)
Theorem authorization_header {World : Type}
    (http : request -> World -> outcome json * World)
    (tableToMarkdown : string -> json -> string)
    (base_url : string) (key : option string) (c : call)
    (st : state World) (r : request) :
  In r (requests_of (perform http tableToMarkdown (Client__init__ base_url key) c) st) ->
  (forall k, key = Some k -> k <> EmptyString ->
     req_header "Authorization" r = Some ("Bearer " ++ k)%string) /\
  (key = None \/ key = Some EmptyString -> req_header "Authorization" r = None).
Proof.
  intros Hin.
  pose proof (requests_of_carries _ _ st
                (perform_carries http tableToMarkdown _
                   (Client__init__ base_url key) c eq_refl)) as F.
  rewrite Forall_forall in F. specialize (F r Hin).
  unfold req_header. rewrite F, headers_of_init. split.
  - intros k -> Hk. destruct k as [|a k]; [congruence | reflexivity].
  - intros [-> | ->]; reflexivity.
Qed.

(** ** Conditional add *)

(** The entry that is appended has the fixed address text [(address)]: it
    matches a queried address only when that address is this very text. *)
Lemma entry_address (a : string) :
  address_is a entry = true <-> a = "(address)".
Proof.
  change (address_is a entry) with (String.eqb "(address)" a).
  rewrite String.eqb_eq. split; congruence.
Qed.

Section ConditionalAdd.

Context {World : Type}.
Variable http : request -> World -> outcome json * World.
Variable tableToMarkdown : string -> json -> string.

Let add_member := get_address_set_add_member_command http tableToMarkdown.

(** X7.  The add path on any service: two member fetches, then one PATCH
    whose collection is the second fetch, in its order, followed by
    [entry]; the result wraps the service's answer to the PATCH. *)
Lemma add_member_absent_run (client : Client) (id address : string)
    (st : state World) (items items' : list json) (w1 w2 : World) :
  http (members_request client id) (remote st) = (Returned (JList items), w1) ->
  http (members_request client id) w1 = (Returned (JList items'), w2) ->
  forallb has_address items = true ->
  existsb (address_is address) items = false ->
  let req := patch_request client id (JList (items' ++ [entry])) in
  add_member client id address st =
    (match fst (http req w2) with
     | Returned response =>
         Returned (MkCommandResults "Webscale Address Set" response
                     (tableToMarkdown "Address Set Config" response))
     | Raised e => Raised e
     end,
     MkState (snd (http req w2))
       (sent st ++ [members_request client id; members_request client id; req])
       (stdout st)).
Proof.
  intros H1 H2 Hok Hno req.
  unfold add_member, get_address_set_add_member_command, bind at 1.
  rewrite (is_member_run http _ _ _ _ _ _ H1).
  cbn [Py.iter]. rewrite (scan_readable _ _ _ Hok), Hno.
  cbn [orb Bool.eqb].
  unfold bind, get_address_set_members, get_address_set_add_member,
    _http_request, lift. cbn [remote sent stdout].
  fold (members_request client id). rewrite H2.
  cbn [Py.append remote sent stdout].
  fold (patch_request client id (JList (items' ++ [entry]))). fold req.
  destruct (http req w2) as [[response|e] w3]; cbn [fst snd];
    rewrite <- !app_assoc; reflexivity.
Qed.

(** X9.  The branch taken for a member on any service: one member fetch, one
    line printed, then the call of [get_address_set_members_command]
    with two arguments raises; nothing else is sent. *)
Lemma add_member_present_run (client : Client) (id address : string)
    (st : state World) (items : list json) (w1 : World) :
  http (members_request client id) (remote st) = (Returned (JList items), w1) ->
  forallb has_address items = true ->
  existsb (address_is address) items = true ->
  add_member client id address st =
    (Raised (TypeError ("get_address_set_members_command() missing 1 required "
                        ++ "positional argument: 'address'")),
     MkState w1 (sent st ++ [members_request client id])
       (stdout st ++ [("IP address " ++ address
                       ++ " is already a member of address set " ++ id)%string])).
Proof.
  intros H1 Hok Hyes.
  unfold add_member, get_address_set_add_member_command, bind at 1.
  rewrite (is_member_run http _ _ _ _ _ _ H1).
  cbn [Py.iter]. rewrite (scan_readable _ _ _ Hok), Hyes. reflexivity.
Qed.

End ConditionalAdd.

(** C2 on the code.  With set [blocklist-1] holding only [1.2.3.4], adding
    [5.6.7.8] fetches the members twice and sends one PATCH whose
    collection is the existing entry followed by an entry with the tool's
    description, and returns the service's answer.  The appended entry's
    address field is the text [(address)], not [5.6.7.8]: afterwards the
    set has no entry with address [5.6.7.8]. *)
Theorem add_member_appends_placeholder_address :
  let run := Scenario.add "5.6.7.8" (Service.start Scenario.world) in
  requests_of (Scenario.add "5.6.7.8") (Service.start Scenario.world)
    = [Scenario.members_req; Scenario.members_req;
       Scenario.patch_req [Scenario.seed; entry]] /\
  fst run
    = Returned (MkCommandResults "Webscale Address Set"
                  (Service.config "blocklist-1" (JList [Scenario.seed; entry]))
                  "Address Set Config") /\
  Service.members "blocklist-1" (Service.sets (remote (snd run)))
    = Some (JList [Scenario.seed; entry]) /\
  Py.getitem entry "address" = Returned (JStr "(address)") /\
  Py.getitem entry "description" = Returned (JStr "Added by Cortex XSOAR") /\
  existsb (address_is "5.6.7.8") [Scenario.seed; entry] = false.
Proof.
  vm_compute. repeat split; reflexivity.
Qed.

(** C1 on the code.  With set [blocklist-1] holding only [1.2.3.4], two
    calls adding [5.6.7.8] in sequence each send a PATCH: the set ends
    with two new entries, neither with address [5.6.7.8]. *)
Theorem add_member_twice_patches_twice :
  let first := Scenario.add "5.6.7.8" (Service.start Scenario.world) in
  let second := Scenario.add "5.6.7.8" (snd first) in
  filter is_patch (sent (snd second))
    = [Scenario.patch_req [Scenario.seed; entry];
       Scenario.patch_req [Scenario.seed; entry; entry]] /\
  filter is_patch (requests_of (Scenario.add "5.6.7.8") (snd first))
    = [Scenario.patch_req [Scenario.seed; entry; entry]] /\
  Service.members "blocklist-1" (Service.sets (remote (snd second)))
    = Some (JList [Scenario.seed; entry; entry]) /\
  filter (address_is "5.6.7.8") [Scenario.seed; entry; entry] = [].
Proof.
  vm_compute. repeat split; reflexivity.
Qed.

(** C4 on the code.  With set [blocklist-1] holding [1.2.3.4], adding
    [1.2.3.4] sends the one member fetch and no PATCH, leaves the service
    as it was and prints the notice; then it raises [TypeError] instead of
    returning the member collection. *)
Theorem add_member_present_raises :
  let run := Scenario.add "1.2.3.4" (Service.start Scenario.world) in
  fst run
    = Raised (TypeError ("get_address_set_members_command() missing 1 required "
                         ++ "positional argument: 'address'")) /\
  sent (snd run) = [Scenario.members_req] /\
  remote (snd run) = Scenario.world /\
  stdout (snd run)
    = ["IP address 1.2.3.4 is already a member of address set blocklist-1"].
Proof.
  vm_compute. repeat split; reflexivity.
Qed.

(** ** The theorems at the scenario *)

Lemma is_member_iff_witness :
  Service.handle (members_request Scenario.client "blocklist-1") Scenario.world
    = (Returned (JList [Scenario.seed]), Scenario.world) /\
  forallb has_address [Scenario.seed] = true /\
  exists b,
    fst (get_address_set_is_member_command Service.handle Scenario.client
           "blocklist-1" "1.2.3.4" (Service.start Scenario.world)) = Returned b /\
    (b = true <->
     exists item, In item [Scenario.seed] /\ address_is "1.2.3.4" item = true) /\
    (b = false <->
     forall item, In item [Scenario.seed] -> address_is "1.2.3.4" item = false).
Proof.
  split; [reflexivity|]. split; [reflexivity|].
  apply (is_member_iff Service.handle Scenario.client "blocklist-1" "1.2.3.4"
           (Service.start Scenario.world) [Scenario.seed] Scenario.world);
    reflexivity.
Defined.

Lemma scan_total_iff_entries_readable_witness :
  let is_member := get_address_set_is_member_command Service.handle Scenario.client in
  let st := Service.start Scenario.world in
  Service.handle (members_request Scenario.client "blocklist-1") Scenario.world
    = (Returned (JList [Scenario.seed]), Scenario.world) /\
  Py.iter (JList [Scenario.seed]) = Returned [Scenario.seed] /\
  forallb has_address [Scenario.seed] = true /\
  fst (is_member "blocklist-1" "1.2.3.4" st)
    = Returned (existsb (address_is "1.2.3.4") [Scenario.seed]).
Proof.
  intros is_member st.
  split; [reflexivity|]. split; [reflexivity|]. split; [reflexivity|].
  apply (scan_total_iff_entries_readable Service.handle Service.table
           Scenario.client "blocklist-1" "1.2.3.4" st
           (JList [Scenario.seed]) [Scenario.seed] Scenario.world);
    reflexivity.
Defined.

Lemma test_module_ok_witness :
  Service.handle (sets_request Scenario.client) Scenario.world
    = (Returned (JList [Service.config "blocklist-1" (JList [Scenario.seed])]),
       Scenario.world) /\
  test_module Service.handle Scenario.client (Service.start Scenario.world)
    = (Returned "ok",
       MkState Scenario.world [Scenario.sets_req Scenario.client] []).
Proof.
  split; [reflexivity|].
  apply (test_module_ok Service.handle Scenario.client
           (Service.start Scenario.world)
           (JList [Service.config "blocklist-1" (JList [Scenario.seed])])
           Scenario.world).
  reflexivity.
Defined.

Lemma test_module_rewrites_auth_errors_witness :
  (Service.handle (sets_request Scenario.stranger) Scenario.world
     = (Raised Service.forbidden, Scenario.world) /\
   contains_ci "forbidden" (exn_text Service.forbidden) /\
   exists text,
     fst (test_module Service.handle Scenario.stranger (Service.start Scenario.world))
       = Returned text /\
     Py.contains "API Key" text = true) /\
  (Scenario.unreachable (sets_request Scenario.client) tt
     = (Raised Scenario.timeout, tt) /\
   ~ contains_ci "forbidden" (exn_text Scenario.timeout) /\
   ~ contains_ci "authorization" (exn_text Scenario.timeout) /\
   fst (test_module Scenario.unreachable Scenario.client (MkState tt [] []))
     = Raised Scenario.timeout).
Proof.
  assert (Hc : contains_ci "forbidden" (exn_text Service.forbidden)).
  { exists "Error in API call [403] - ", "Forbidden", "". split; reflexivity. }
  assert (Hf : ~ contains_ci "forbidden" (exn_text Scenario.timeout)).
  { rewrite <- contains_lower by reflexivity. vm_compute. discriminate. }
  assert (Ha : ~ contains_ci "authorization" (exn_text Scenario.timeout)).
  { rewrite <- contains_lower by reflexivity. vm_compute. discriminate. }
  split.
  - split; [reflexivity|]. split; [exact Hc|].
    apply (proj1 (test_module_rewrites_auth_errors Service.handle Scenario.stranger
                    (Service.start Scenario.world) Service.forbidden
                    Scenario.world eq_refl)).
    left. exact Hc.
  - split; [reflexivity|]. split; [exact Hf|]. split; [exact Ha|].
    exact (proj2 (test_module_rewrites_auth_errors Scenario.unreachable
                    Scenario.client (MkState tt [] []) Scenario.timeout tt eq_refl)
             Hf Ha).
Defined.

Lemma authorization_header_witness :
  (In (Scenario.patch_req [Scenario.seed; entry])
      (requests_of
         (perform Service.handle Service.table
            (Client__init__ "https://api.example" (Some "s3cret"))
            (CallAddMember "blocklist-1" "5.6.7.8"))
         (Service.start Scenario.world)) /\
   req_header "Authorization" (Scenario.patch_req [Scenario.seed; entry])
     = Some "Bearer s3cret") /\
  (In (Scenario.sets_req Scenario.stranger)
      (requests_of
         (perform Service.handle Service.table
            (Client__init__ "https://api.example" None) CallListSets)
         (Service.start Scenario.world)) /\
   req_header "Authorization" (Scenario.sets_req Scenario.stranger) = None).
Proof.
  assert (H1 : In (Scenario.patch_req [Scenario.seed; entry])
                 (requests_of
                    (perform Service.handle Service.table
                       (Client__init__ "https://api.example" (Some "s3cret"))
                       (CallAddMember "blocklist-1" "5.6.7.8"))
                    (Service.start Scenario.world))).
  { vm_compute. right. right. left. reflexivity. }
  assert (H2 : In (Scenario.sets_req Scenario.stranger)
                 (requests_of
                    (perform Service.handle Service.table
                       (Client__init__ "https://api.example" None) CallListSets)
                    (Service.start Scenario.world))).
  { vm_compute. left. reflexivity. }
  split; (split; [assumption|]).
  - apply (proj1 (authorization_header Service.handle Service.table
                    "https://api.example" (Some "s3cret")
                    (CallAddMember "blocklist-1" "5.6.7.8")
                    (Service.start Scenario.world) _ H1) "s3cret" eq_refl).
    discriminate.
  - apply (proj2 (authorization_header Service.handle Service.table
                    "https://api.example" None CallListSets
                    (Service.start Scenario.world) _ H2)).
    left. reflexivity.
Defined.

(** ** The read operations *)

Lemma requests_of_app {World A} (m : M World A) (st : state World) (rs : list request) :
  sent (snd (m st)) = sent st ++ rs -> requests_of m st = rs.
Proof.
  intros E. unfold requests_of.
  now rewrite E, skipn_app, skipn_all, Nat.sub_diag.
Qed.

Section Reads.

Context {World : Type}.
Variable http : request -> World -> outcome json * World.
Variable tableToMarkdown : string -> json -> string.

(** What one call of [_http_request] with request [req] leaves behind. *)
Let after (req : request) (st : state World) : state World :=
  MkState (snd (http req (remote st))) (sent st ++ [req]) (stdout st).

Lemma http_request_run (client : Client) (method : http_method) (url : string)
    (body : option json) (st : state World) :
  _http_request http client method url body st
  = (fst (http (Request method (_base_url client) url (_headers client) body)
            (remote st)),
     after (Request method (_base_url client) url (_headers client) body) st).
Proof.
  unfold _http_request, after. destruct (http _ (remote st)); reflexivity.
Qed.


(** X3.  The set id goes into the path as it is.  For an id that ends in
    [/addresses], fetching the set's configuration is the same run as
    listing the members of the set named by what comes before; and a
    PATCH for such an id is addressed to that set's member path. *)
Theorem set_id_is_not_escaped (client : Client) (id address : string)
    (entries : json) (st : state World) :
  get_address_set http client (id ++ "/addresses") st
    = get_address_set_members http client id st /\
  req_url_suffix (patch_request client (id ++ "/addresses") entries)
    = req_url_suffix (members_request client id) /\
  requests_of (get_address_set_add_member http client (id ++ "/addresses")
                 address entries) st
    = [patch_request client (id ++ "/addresses") entries].
Proof.
  split; [reflexivity|]. split; [reflexivity|].
  apply requests_of_app.
  unfold get_address_set_add_member. rewrite http_request_run. reflexivity.
Qed.


(** X10.  [test_module] returns [ok] only when the request for the sets was
    answered: after a failure it returns the remediation text or raises.
    Whatever happens it has sent exactly that one request and printed
    nothing. *)
Theorem test_module_ok_iff (client : Client) (st : state World) :
  (fst (test_module http client st) = Returned "ok" <->
   exists v, fst (http (sets_request client) (remote st)) = Returned v) /\
  snd (test_module http client st) = after (sets_request client) st.
Proof.
  unfold test_module, bind, try_except, get_address_sets.
  rewrite http_request_run. fold (sets_request client).
  destruct (fst (http (sets_request client) (remote st))) as [v|e]; cbn.
  - split; [|reflexivity]. split; eauto.
  - destruct (Py.contains "forbidden" (Py.lower (exn_text e))
              || Py.contains "authorization" (Py.lower (exn_text e))); cbn.
    + split; [|reflexivity]. split; [discriminate | intros [v H]; discriminate].
    + split; [|reflexivity]. split; [discriminate | intros [v H]; discriminate].
Qed.

(** X5.  When the member endpoint answers with something that is not a list,
    the membership test returns [False] for an empty mapping and an empty
    string, and raises [TypeError] for every other answer. *)
Theorem is_member_answer_not_a_list (client : Client) (id address : string)
    (st : state World) (response : json) (w : World) :
  http (members_request client id) (remote st) = (Returned response, w) ->
  (forall items, response <> JList items) ->
  (response = JDict [] \/ response = JStr "" ->
   fst (get_address_set_is_member_command http client id address st)
     = Returned false) /\
  (response <> JDict [] -> response <> JStr "" ->
   exists msg,
     fst (get_address_set_is_member_command http client id address st)
       = Raised (TypeError msg)).
Proof.
  intros H Hl. rewrite (is_member_run http _ _ _ _ _ _ H). cbn [fst]. split.
  - intros [-> | ->]; reflexivity.
  - intros Hd Hs.
    destruct response as [| | | |s|items|fields]; cbn; eauto.
    + destruct s; [congruence | cbn; eauto].
    + now destruct (Hl items).
    + destruct fields as [|[k v] fields]; [congruence | cbn; eauto].
Qed.

End Reads.

(** ** Which entry points write *)

Section SendsOnly.

Context {World : Type}.
Variable http : request -> World -> outcome json * World.
Variable tableToMarkdown : string -> json -> string.
Variable P : request -> Prop.

Lemma sends_only_still {A} (m : M World A) :
  (forall st, sent (snd (m st)) = sent st) -> sends_only P m.
Proof.
  intros H st. exists []. rewrite H, app_nil_r. auto.
Qed.

Lemma sends_only_bind {A B} (m : M World A) (k : A -> M World B) :
  sends_only P m -> (forall a, sends_only P (k a)) -> sends_only P (bind m k).
Proof.
  intros Hm Hk st. unfold bind.
  destruct (Hm st) as (rs & E & F).
  destruct (m st) as [[a|e] st']; cbn [snd] in E.
  - destruct (Hk a st') as (rs' & E' & F').
    exists (rs ++ rs'). rewrite E', E, app_assoc.
    split; [reflexivity | apply Forall_app; auto].
  - exists rs. auto.
Qed.

Lemma sends_only_try {A} (m : M World A) (k : exn -> M World A) :
  sends_only P m -> (forall e, sends_only P (k e)) -> sends_only P (try_except m k).
Proof.
  intros Hm Hk st. unfold try_except.
  destruct (Hm st) as (rs & E & F).
  destruct (m st) as [[a|e] st']; cbn [snd] in E.
  - exists rs. auto.
  - destruct (Hk e st') as (rs' & E' & F').
    exists (rs ++ rs'). rewrite E', E, app_assoc.
    split; [reflexivity | apply Forall_app; auto].
Qed.

Lemma sends_only_http (client : Client) (method : http_method) (url : string)
    (body : option json) :
  P (Request method (_base_url client) url (_headers client) body) ->
  sends_only P (_http_request http client method url body).
Proof.
  intros HP st. unfold _http_request.
  destruct (http _ (remote st)) as [r w]. cbn [snd sent].
  eexists. split; [reflexivity|]. constructor; [exact HP | constructor].
Qed.

Lemma requests_of_sends_only {A} (m : M World A) (st : state World) :
  sends_only P m -> Forall P (requests_of m st).
Proof.
  intros Hm. destruct (Hm st) as (rs & E & F).
  now rewrite (requests_of_app _ _ _ E).
Qed.

End SendsOnly.

Ltac send_only :=
  repeat first
    [ apply sends_only_still; reflexivity
    | apply sends_only_http; split; reflexivity
    | apply sends_only_bind | apply sends_only_try
    | match goal with
      | |- sends_only _ (if ?b then _ else _) => destruct b
      | |- sends_only _ (match ?x with _ => _ end) => destruct x
      | |- forall _, sends_only _ _ => intro
      end ].

(** X1.  Every entry point other than the PATCH method and the conditional add
    only reads: each request it sends, on any service and from any state,
    is a GET without a body. *)
Theorem readers_send_only_get {World : Type}
    (http : request -> World -> outcome json * World)
    (tableToMarkdown : string -> json -> string)
    (client : Client) (c : call) (st : state World) :
  writes c = false ->
  Forall reads (requests_of (perform http tableToMarkdown client c) st).
Proof.
  intros Hc. apply requests_of_sends_only.
  destruct c; try discriminate Hc;
    unfold perform, test_module, get_address_sets_command,
      get_address_set_command, get_address_set_members_command,
      get_address_set_is_blocked_command, get_address_set_is_throttled_command,
      get_address_set_is_member_command,
      get_address_sets, get_address_set, get_address_set_members;
    send_only.
Qed.

(** ** The requests of the conditional add *)

Section AddRequests.

Context {World : Type}.
Variable http : request -> World -> outcome json * World.
Variable tableToMarkdown : string -> json -> string.

Let add_member := get_address_set_add_member_command http tableToMarkdown.

Lemma add_member_sent (client : Client) (id address : string) (st : state World) :
  let g := members_request client id in
  let after := sent (snd (add_member client id address st)) in
  after = sent st ++ [g] \/
  after = sent st ++ [g; g] \/
  exists items,
    fst (http g (snd (http g (remote st)))) = Returned (JList items) /\
    after = sent st ++ [g; g; patch_request client id (JList (items ++ [entry]))].
Proof.
  intros g after. subst after.
  destruct (http g (remote st)) as [r1 w1] eqn:H1.
  destruct r1 as [response|e].
  - unfold add_member, get_address_set_add_member_command, bind.
    rewrite (is_member_run http _ _ _ _ _ _ H1). fold g.
    destruct (Py.iter response) as [items|e]; [|left; reflexivity].
    destruct (scan items address false) as [[|]|e];
      [left; reflexivity | | left; reflexivity].
    cbn [Bool.eqb snd].
    unfold get_address_set_members, get_address_set_add_member,
      _http_request, lift. cbn [remote sent stdout].
    fold (members_request client id). fold g.
    destruct (http g w1) as [r2 w2] eqn:H2.
    destruct r2 as [v|e].
    + destruct v as [| | | | |items'|fields]; cbn [Py.append];
        try (right; left; cbn [snd sent]; now rewrite <- app_assoc).
      right. right. exists items'. split; [reflexivity|].
      cbn [remote sent stdout].
      fold (patch_request client id (JList (items' ++ [entry]))).
      destruct (http _ w2) as [[response'|e] w3]; cbn [snd sent];
        now rewrite <- !app_assoc.
    + right. left. cbn [snd sent]. now rewrite <- app_assoc.
  - left.
    unfold add_member, get_address_set_add_member_command,
      get_address_set_is_member_command, bind, get_address_set_members,
      _http_request.
    fold (members_request client id). fold g. rewrite H1. reflexivity.
Qed.

(** X6.  On any service and from any state, a conditional add sends one member
    fetch, or two, or two followed by a single PATCH.  The PATCH is
    addressed to the same set and its collection is the list the second
    fetch returned, in its order, with [entry] appended. *)
Theorem add_member_requests (client : Client) (id address : string)
    (st : state World) :
  let g := members_request client id in
  let rs := requests_of (add_member client id address) st in
  rs = [g] \/
  rs = [g; g] \/
  exists items,
    fst (http g (snd (http g (remote st)))) = Returned (JList items) /\
    rs = [g; g; patch_request client id (JList (items ++ [entry]))].
Proof.
  intros g rs. subst rs.
  destruct (add_member_sent client id address st) as [E | [E | (items & H & E)]].
  - left. now apply requests_of_app.
  - right. left. now apply requests_of_app.
  - right. right. exists items. split; [exact H | now apply requests_of_app].
Qed.

(** X8.  When the scan finds no member and the second fetch returns something
    that is not a list (an empty mapping, say), the conditional add raises
    [AttributeError] at [entries.append] and sends no PATCH. *)
Theorem add_member_second_fetch_not_a_list (client : Client) (id address : string)
    (st : state World) (response answer : json) (items : list json)
    (w1 w2 : World) :
  http (members_request client id) (remote st) = (Returned response, w1) ->
  Py.iter response = Returned items ->
  scan items address false = Returned false ->
  http (members_request client id) w1 = (Returned answer, w2) ->
  (forall items', answer <> JList items') ->
  add_member client id address st
  = (Raised (AttributeError ("'" ++ Py.type_name answer
                               ++ "' object has no attribute 'append'")),
     MkState w2 (sent st ++ [members_request client id; members_request client id])
       (stdout st)).
Proof.
  intros H1 Hiter Hscan H2 Hl.
  unfold add_member, get_address_set_add_member_command, bind at 1.
  rewrite (is_member_run http _ _ _ _ _ _ H1), Hiter, Hscan.
  cbn [Bool.eqb].
  unfold bind, get_address_set_members, _http_request, lift.
  cbn [remote sent stdout].
  fold (members_request client id). rewrite H2.
  destruct answer as [| | | | |items'|fields];
    try (cbn [Py.append Py.type_name]; rewrite <- app_assoc; reflexivity).
  now destruct (Hl items').
Qed.

End AddRequests.

(** ** Dispatch *)

Lemma get_in (k : string) (args : Call.kwargs) :
  Call.get k args <> None <-> In k (map fst args).
Proof.
  induction args as [|[k' v] args IH]; cbn.
  - split; [congruence | tauto].
  - destruct (String.eqb_spec k' k) as [->|Hk].
    + split; [auto | congruence].
    + rewrite IH. split; [auto | intros [H|H]; [congruence | exact H]].
Qed.

Lemma keywords_returns (f : string) (params : list string) (args : Call.kwargs) :
  Call.keywords f params args = Returned tt <->
  forall k, In k (map fst args) -> k <> "client" /\ In k params.
Proof.
  induction args as [|[k v] args IH]; cbn [Call.keywords map fst].
  - split; [intros _ k [] | reflexivity].
  - destruct (String.eqb_spec k "client") as [->|Hc].
    + split; [discriminate|]. intros H.
      destruct (H "client" (or_introl eq_refl)) as [Hn _]. congruence.
    + destruct (existsb (String.eqb k) params) eqn:E.
      * rewrite IH. apply existsb_exists in E as (p & Hp & Ep).
        apply String.eqb_eq in Ep. subst p.
        split.
        -- intros H k' [<- | Hk']; [auto | apply H; exact Hk'].
        -- intros H k' Hk'. apply H. right. exact Hk'.
      * split; [discriminate|]. intros H.
        destruct (H k (or_introl eq_refl)) as [_ Hin].
        assert (existsb (String.eqb k) params = true) as E'.
        { apply existsb_exists. exists k. split; [exact Hin | apply String.eqb_refl]. }
        congruence.
Qed.

Lemma keywords_type_error (f : string) (params : list string) (args : Call.kwargs)
    (e : exn) :
  Call.keywords f params args = Raised e -> exists msg, e = TypeError msg.
Proof.
  induction args as [|[k v] args IH]; cbn [Call.keywords]; [discriminate|].
  destruct (String.eqb k "client"); [intros [= <-]; eauto|].
  destruct (existsb (String.eqb k) params); [exact IH | intros [= <-]; eauto].
Qed.

Lemma unfilled_nil (params : list string) (args : Call.kwargs) :
  Call.unfilled params args = [] <->
  forall p, In p params -> In p (map fst args).
Proof.
  unfold Call.unfilled. induction params as [|p params IH]; cbn [filter].
  - split; [intros _ p [] | reflexivity].
  - destruct (Call.get p args) as [v|] eqn:E.
    + rewrite IH. split.
      * intros H q [<- | Hq]; [apply get_in; congruence | auto].
      * intros H q Hq. apply H. right. exact Hq.
    + split; [discriminate|]. intros H.
      assert (Call.get p args <> None) by (apply get_in, H; left; reflexivity).
      congruence.
Qed.

(** The call binds exactly when the keywords are the parameters. *)
Lemma bind_arguments_returns (f : string) (params : list string)
    (args : Call.kwargs) :
  ~ In "client" params ->
  Call.bind_arguments f params args = Returned tt <->
  forall k, In k (map fst args) <-> In k params.
Proof.
  intros Hc. unfold Call.bind_arguments.
  destruct (Call.keywords f params args) as [[]|e] eqn:K.
  - pose proof (proj1 (keywords_returns _ _ _) K) as K'.
    destruct (Call.unfilled params args) as [|m ms] eqn:U.
    + pose proof (proj1 (unfilled_nil _ _) U) as U'. split; [|reflexivity].
      intros _ k. split; [apply K' | apply U'].
    + split; [discriminate|]. intros H.
      assert (Call.unfilled params args = []) by (apply unfilled_nil; apply H).
      congruence.
  - split; [discriminate|]. intros H.
    assert (Call.keywords f params args = Returned tt).
    { apply keywords_returns. intros k Hk. apply H in Hk. split; [|exact Hk].
      intros ->. auto. }
    congruence.
Qed.

Lemma bind_arguments_type_error (f : string) (params : list string)
    (args : Call.kwargs) (e : exn) :
  Call.bind_arguments f params args = Raised e -> exists msg, e = TypeError msg.
Proof.
  unfold Call.bind_arguments.
  destruct (Call.keywords f params args) as [[]|e'] eqn:K.
  - destruct (Call.unfilled params args); [discriminate | intros [= <-]; eauto].
  - intros [= <-]. exact (keywords_type_error _ _ _ _ K).
Qed.

Lemma bind_arguments_cases (f : string) (params : list string) (args : Call.kwargs) :
  Call.bind_arguments f params args = Returned tt \/
  exists msg, Call.bind_arguments f params args = Raised (TypeError msg).
Proof.
  destruct (Call.bind_arguments f params args) as [[]|e] eqn:B; [auto|].
  destruct (bind_arguments_type_error _ _ _ _ B) as [msg ->]. eauto.
Qed.

Section Dispatch.

Context {World : Type}.
Variable http : request -> World -> outcome json * World.
Variable tableToMarkdown : string -> json -> string.

Let dispatch := main_dispatch http tableToMarkdown.

(** X11.  A command name [main] does not know raises [NotImplementedError]
    naming it, before anything is sent or printed, whatever the
    arguments. *)
Theorem main_dispatch_unknown_command (client : Client) (command : string)
    (args : Call.kwargs) (st : state World) :
  ~ In command commands ->
  dispatch client command args st
  = (Raised (NotImplementedError ("command " ++ command ++ " is not implemented.")),
     st).
Proof.
  intros H. unfold dispatch, main_dispatch.
  repeat match goal with
  | |- context [String.eqb command ?c] =>
      destruct (String.eqb_spec command c) as [->|?];
      [exfalso; apply H; cbn; tauto|]
  end.
  reflexivity.
Qed.

(** X12.  A command that passes [**args] and gets an argument its function has
    no parameter for, or lacks one the function requires, raises
    [TypeError] before anything is sent or printed. *)
Theorem main_dispatch_wrong_arguments (client : Client) (command : string)
    (params : list string) (args : Call.kwargs) (st : state World) :
  parameters command = Some params ->
  (exists k, In k (map fst args) /\ ~ In k params) \/
  (exists p, In p params /\ ~ In p (map fst args)) ->
  exists msg, dispatch client command args st = (Raised (TypeError msg), st).
Proof.
  intros Hp Hbad.
  assert (Hfail : forall f, exists msg,
             Call.bind_arguments f params args = Raised (TypeError msg)).
  { intros f. destruct (bind_arguments_cases f params args) as [B|B]; [|exact B].
    exfalso.
    assert (Hc : ~ In "client" params).
    { unfold parameters in Hp.
      destruct (String.eqb command "webscale-address-set");
        [|destruct (existsb _ _)]; inversion Hp; subst; cbn;
        intuition discriminate. }
    pose proof (proj1 (bind_arguments_returns f params args Hc) B) as B'.
    destruct Hbad as [(k & Hk & Hn) | (p & Hq & Hn)]; apply Hn, B'; assumption. }
  unfold parameters in Hp.
  destruct (String.eqb_spec command "webscale-address-set") as [->|Hne].
  - injection Hp as <-.
    destruct (Hfail "get_address_set_command") as [msg B].
    exists msg. unfold dispatch, main_dispatch. cbn [String.eqb Ascii.eqb Bool.eqb].
    unfold bind, lift. rewrite B. reflexivity.
  - destruct (existsb _ _) eqn:E; [|discriminate]. injection Hp as <-.
    apply existsb_exists in E as (c & Hc & Ec). apply String.eqb_eq in Ec. subst c.
    cbn [In] in Hc.
    destruct Hc as [<- | [<- | [<- | [<- | [<- | []]]]]];
      unfold dispatch, main_dispatch; cbn [String.eqb Ascii.eqb Bool.eqb];
      unfold bind at 1, lift;
      match goal with
      | |- context [Call.bind_arguments ?f _ _] =>
          destruct (Hfail f) as [msg B]; exists msg; rewrite B; reflexivity
      end.
Qed.

(** X13.  The command [webscale-address-set-members] never yields a result:
    whatever its arguments, it raises [TypeError] (arguments that do not
    bind) or [AttributeError] (the misnamed client method) and nothing is
    sent or printed. *)
Theorem main_dispatch_members_never_returns (client : Client)
    (args : Call.kwargs) (st : state World) :
  exists e,
    dispatch client "webscale-address-set-members" args st = (Raised e, st) /\
    (exn_class e = "TypeError" \/ exn_class e = "AttributeError").
Proof.
  unfold dispatch, main_dispatch. cbn [String.eqb Ascii.eqb Bool.eqb].
  unfold bind, lift.
  destruct (bind_arguments_cases "get_address_set_members_command"
              ["id"; "address"] args) as [B | [msg B]]; rewrite B.
  - eexists. split; [reflexivity|]. right. reflexivity.
  - eexists. split; [reflexivity|]. left. reflexivity.
Qed.

(** X14.  Arguments are bound by name.  When [args] has exactly the keys [id]
    and [address], in either order, the three membership commands run the
    membership test on those two values and hand its boolean to
    [return_results], all three alike, and the add command runs the
    conditional add on them. *)
Theorem main_dispatch_binds_by_name (client : Client) (args : Call.kwargs)
    (id address : string) (st : state World) :
  Call.get "id" args = Some id ->
  Call.get "address" args = Some address ->
  (forall k, In k (map fst args) -> k = "id" \/ k = "address") ->
  let is_member :=
    (r <- get_address_set_is_member_command http client id address ;;
     ret (ResultBool r)) st in
  dispatch client "webscale-address-set-is-member" args st = is_member /\
  dispatch client "webscale-address-set-is-blocked" args st = is_member /\
  dispatch client "webscale-address-set-is-throttled" args st = is_member /\
  dispatch client "webscale-address-set-add-member" args st
    = (r <- get_address_set_add_member_command http tableToMarkdown client id address ;;
       ret (ResultCommand r)) st.
Proof.
  intros Hid Haddr Hkeys is_member. subst is_member.
  assert (B : forall f, Call.bind_arguments f ["id"; "address"] args = Returned tt).
  { intros f. apply bind_arguments_returns.
    - cbn. intuition discriminate.
    - intros k. split.
      + intros Hk. destruct (Hkeys k Hk) as [-> | ->]; cbn; auto.
      + intros [<- | [<- | []]]; apply get_in; congruence. }
  unfold dispatch, main_dispatch. cbn [String.eqb Ascii.eqb Bool.eqb].
  unfold get_address_set_is_blocked_command, get_address_set_is_throttled_command,
    Call.value.
  rewrite Hid, Haddr.
  repeat split; unfold bind at 1, lift; rewrite B; reflexivity.
Qed.

End Dispatch.

(** ** The further theorems at concrete inputs *)

Lemma is_member_answer_not_a_list_witness :
  (Service.handle (members_request Cases.client "empty") Cases.world
     = (Returned (JDict []), Cases.world) /\
   fst (get_address_set_is_member_command Service.handle Cases.client
          "empty" "1.2.3.4" (Service.start Cases.world)) = Returned false) /\
  (Service.handle (members_request Cases.client "null") Cases.world
     = (Returned JNull, Cases.world) /\
   exists msg,
     fst (get_address_set_is_member_command Service.handle Cases.client
            "null" "1.2.3.4" (Service.start Cases.world)) = Raised (TypeError msg)).
Proof.
  split; (split; [reflexivity|]).
  - apply (proj1 (is_member_answer_not_a_list Service.handle Cases.client
                    "empty" "1.2.3.4" (Service.start Cases.world)
                    (JDict []) Cases.world eq_refl
                    (fun items H => ltac:(discriminate H)))).
    left. reflexivity.
  - apply (proj2 (is_member_answer_not_a_list Service.handle Cases.client
                    "null" "1.2.3.4" (Service.start Cases.world)
                    JNull Cases.world eq_refl
                    (fun items H => ltac:(discriminate H)))); discriminate.
Defined.

Lemma readers_send_only_get_witness :
  writes (CallIsMember "blocklist-1" "1.2.3.4") = false /\
  Forall reads
    (requests_of
       (perform Service.handle Service.table Scenario.client
          (CallIsMember "blocklist-1" "1.2.3.4"))
       (Service.start Scenario.world)).
Proof.
  split; [reflexivity|].
  apply (readers_send_only_get Service.handle Service.table Scenario.client
           (CallIsMember "blocklist-1" "1.2.3.4") (Service.start Scenario.world)).
  reflexivity.
Defined.

Lemma add_member_second_fetch_not_a_list_witness :
  Service.handle (members_request Cases.client "empty") Cases.world
    = (Returned (JDict []), Cases.world) /\
  Py.iter (JDict []) = Returned [] /\
  scan [] "1.2.3.4" false = Returned false /\
  get_address_set_add_member_command Service.handle Service.table Cases.client
    "empty" "1.2.3.4" (Service.start Cases.world)
  = (Raised (AttributeError "'dict' object has no attribute 'append'"),
     MkState Cases.world
       [members_request Cases.client "empty"; members_request Cases.client "empty"]
       []).
Proof.
  split; [reflexivity|]. split; [reflexivity|]. split; [reflexivity|].
  apply (add_member_second_fetch_not_a_list Service.handle Service.table
           Cases.client "empty" "1.2.3.4" (Service.start Cases.world)
           (JDict []) (JDict []) [] Cases.world Cases.world);
    try reflexivity.
  intros items H. discriminate H.
Defined.

Lemma add_member_absent_run_witness :
  Service.handle (members_request Scenario.client "blocklist-1") Scenario.world
    = (Returned (JList [Scenario.seed]), Scenario.world) /\
  forallb has_address [Scenario.seed] = true /\
  existsb (address_is "5.6.7.8") [Scenario.seed] = false /\
  sent (snd (Scenario.add "5.6.7.8" (Service.start Scenario.world)))
    = [members_request Scenario.client "blocklist-1";
       members_request Scenario.client "blocklist-1";
       patch_request Scenario.client "blocklist-1" (JList [Scenario.seed; entry])].
Proof.
  split; [reflexivity|]. split; [reflexivity|]. split; [reflexivity|].
  unfold Scenario.add.
  rewrite (add_member_absent_run Service.handle Service.table Scenario.client
             "blocklist-1" "5.6.7.8" (Service.start Scenario.world)
             [Scenario.seed] [Scenario.seed] Scenario.world Scenario.world
             eq_refl eq_refl eq_refl eq_refl).
  reflexivity.
Defined.

Lemma add_member_present_run_witness :
  Service.handle (members_request Scenario.client "blocklist-1") Scenario.world
    = (Returned (JList [Scenario.seed]), Scenario.world) /\
  forallb has_address [Scenario.seed] = true /\
  existsb (address_is "1.2.3.4") [Scenario.seed] = true /\
  exists msg,
    fst (Scenario.add "1.2.3.4" (Service.start Scenario.world))
      = Raised (TypeError msg).
Proof.
  split; [reflexivity|]. split; [reflexivity|]. split; [reflexivity|].
  unfold Scenario.add.
  rewrite (add_member_present_run Service.handle Service.table Scenario.client
             "blocklist-1" "1.2.3.4" (Service.start Scenario.world)
             [Scenario.seed] Scenario.world eq_refl eq_refl eq_refl).
  eexists. reflexivity.
Defined.

Lemma main_dispatch_unknown_command_witness :
  ~ In "webscale-address-set-remove-member" commands /\
  main_dispatch Service.handle Service.table Scenario.client
    "webscale-address-set-remove-member" Cases.args (Service.start Scenario.world)
  = (Raised (NotImplementedError
               "command webscale-address-set-remove-member is not implemented."),
     Service.start Scenario.world).
Proof.
  assert (H : ~ In "webscale-address-set-remove-member" commands).
  { cbn. intuition discriminate. }
  split; [exact H|].
  exact (main_dispatch_unknown_command Service.handle Service.table Scenario.client
           "webscale-address-set-remove-member" Cases.args
           (Service.start Scenario.world) H).
Defined.

Lemma main_dispatch_wrong_arguments_witness :
  parameters "webscale-address-set-is-member" = Some ["id"; "address"] /\
  (In "address" ["id"; "address"] /\ ~ In "address" (map fst Cases.only_id)) /\
  exists msg,
    main_dispatch Service.handle Service.table Scenario.client
      "webscale-address-set-is-member" Cases.only_id (Service.start Scenario.world)
    = (Raised (TypeError msg), Service.start Scenario.world).
Proof.
  assert (H : In "address" ["id"; "address"] /\
              ~ In "address" (map fst Cases.only_id)).
  { split; cbn; [auto | intuition discriminate]. }
  split; [reflexivity|]. split; [exact H|].
  apply (main_dispatch_wrong_arguments Service.handle Service.table Scenario.client
           "webscale-address-set-is-member" ["id"; "address"] Cases.only_id
           (Service.start Scenario.world) eq_refl).
  right. exists "address". exact H.
Defined.

Lemma main_dispatch_binds_by_name_witness :
  Call.get "id" Cases.args = Some "blocklist-1" /\
  Call.get "address" Cases.args = Some "1.2.3.4" /\
  main_dispatch Service.handle Service.table Scenario.client
    "webscale-address-set-is-blocked" Cases.args (Service.start Scenario.world)
  = (r <- get_address_set_is_member_command Service.handle Scenario.client
            "blocklist-1" "1.2.3.4" ;;
     ret (ResultBool r)) (Service.start Scenario.world).
Proof.
  split; [reflexivity|]. split; [reflexivity|].
  apply (main_dispatch_binds_by_name Service.handle Service.table Scenario.client
           Cases.args "blocklist-1" "1.2.3.4" (Service.start Scenario.world)
           eq_refl eq_refl).
  cbn. intuition.
Defined.
